(** * Sentiment-Analysis-Twitter: the client-side synchronisation logic

    A shallow embedding of [src/frontend/src/App.js]: the React component
    [App], its five state cells and its asynchronous handlers
    ([fetchTweets], [fetchStats], [analyzeTweet], [deleteTweet]).

    - [JS] models the fragment of JavaScript the handlers rely on: strings
      as sequences of UTF-16 code units, [String.prototype.trim],
      [ToBoolean], property access on parsed JSON, and the outcome of a
      [fetch] call.
    - [App] models the component.  An [async] function is split at its
      suspension point into the synchronous prefix (named as in the
      source) and the continuation that runs once the request settles
      (suffix [_resume]).  State, the list of issued requests, the console
      and the set of suspended continuations are threaded explicitly. *)

From Stdlib Require Import List NArith Bool Lia String Ascii.
From Stdlib Require PrimFloat.
Import ListNotations.

Set Implicit Arguments.
Set Warnings "-register-all".
Local Open Scope N_scope.

(* ===================================================================== *)
(** ** The JavaScript fragment *)
(* ===================================================================== *)

Module JS.

(** A JavaScript string is a sequence of 16-bit code units; [.length]
    counts code units. *)
Definition code_unit := N.
Definition str := list code_unit.

(** String literals of the source are ASCII. *)
Definition lit (s : string) : str :=
  List.map N_of_ascii (list_ascii_of_string s).

Fixpoint str_eqb (a b : str) : bool :=
  match a, b with
  | [], [] => true
  | x :: a', y :: b' => N.eqb x y && str_eqb a' b'
  | _, _ => false
  end.

(** The code units stripped by [String.prototype.trim]: ECMAScript
    WhiteSpace (TAB, VT, FF, SP, NBSP, ZWNBSP and the Unicode space
    separators) and LineTerminator (LF, CR, LS, PS).  All of them lie in
    the Basic Multilingual Plane, so the test is per code unit. *)
Definition white_space_code_units : list code_unit :=
  [ 9; 10; 11; 12; 13; 32; 160; 5760;
    8192; 8193; 8194; 8195; 8196; 8197; 8198; 8199; 8200; 8201; 8202;
    8232; 8233; 8239; 8287; 12288; 65279 ].

Definition isWhiteSpace (c : code_unit) : bool :=
  existsb (N.eqb c) white_space_code_units.

Fixpoint trimStart (s : str) : str :=
  match s with
  | [] => []
  | c :: s' => if isWhiteSpace c then trimStart s' else s
  end.

Definition trimEnd (s : str) : str := rev (trimStart (rev s)).

(** [s.trim()] *)
Definition trim (s : str) : str := trimEnd (trimStart s).

(** [s.length] *)
Definition length (s : str) : N := N.of_nat (List.length s).

(** JavaScript values as they reach the component: [undefined] and the
    values [JSON.parse] produces.  An object is the list of its own
    properties. *)
Inductive value : Type :=
| VUndefined
| VNull
| VBool (b : bool)
| VNum (f : PrimFloat.float)
| VStr (s : str)
| VArr (elems : list value)
| VObj (props : list (str * value)).

(** ToBoolean, as used by [!x], [x || y] and [x && y]. *)
Definition ToBoolean (v : value) : bool :=
  match v with
  | VUndefined | VNull => false
  | VBool b => b
  | VNum f => negb (PrimFloat.is_zero f || PrimFloat.is_nan f)
  | VStr s => match s with [] => false | _ => true end
  | VArr _ | VObj _ => true
  end.

(** [a || b] on values *)
Definition or_else (a b : value) : value := if ToBoolean a then a else b.

(** Exceptions: a rejection reason supplied by the environment (network
    failure, unreadable body), or the TypeError the language raises on a
    property access on [null] or [undefined]. *)
Inductive exn : Type :=
| Rejection (reason : str)
| TypeError.

Fixpoint own_property (k : str) (props : list (str * value)) : value :=
  match props with
  | [] => VUndefined
  | (k', v) :: rest => if str_eqb k k' then v else own_property k rest
  end.

(** [v.k] for a property name [k] that no built-in prototype defines (the
    component reads [.tweets] and [.error] only): a TypeError on [null]
    and [undefined], the own property of an object, [undefined] on every
    other value. *)
Definition Get (v : value) (k : str) : exn + value :=
  match v with
  | VUndefined | VNull => inl TypeError
  | VObj props => inr (own_property k props)
  | _ => inr VUndefined
  end.

(** *** The network *)

Inductive method := GET | POST | DELETE.

Definition method_eqb (a b : method) : bool :=
  match a, b with
  | GET, GET | POST, POST | DELETE, DELETE => true
  | _, _ => false
  end.

(** The arguments of one [fetch] call.  [req_body] is the value handed to
    [JSON.stringify], not its serialisation. *)
Record request := mkRequest {
  req_method : method;
  req_url : str;
  req_headers : list (str * str);
  req_body : option value
}.

(** A response: its [ok] flag (status in the range 200-299) and what
    awaiting [response.json()] gives. *)
Record response := mkResponse {
  ok : bool;
  json : exn + value
}.

(** How the promise returned by [fetch] settles. *)
Definition outcome := (exn + response)%type.

End JS.

Import JS.

(* ===================================================================== *)
(** ** The component *)
(* ===================================================================== *)

Module App.

Definition API_BASE_URL : str := lit "http://localhost:5000/api".

(** The five [useState] cells, with the initial values of lines 7-11. *)
Record View := mkView {
  tweet : str;
  tweets : value;
  stats : value;
  loading : bool;
  error : value
}.

Definition initial_view : View :=
  {| tweet := []; tweets := VArr []; stats := VNull;
     loading := false; error := VStr [] |}.

(** The continuation of each async function, suspended on its [fetch]. *)
Inductive task := FetchTweetsK | FetchStatsK | AnalyzeTweetK | DeleteTweetK.

(** Everything a handler can read or change: the view, the requests
    issued so far (oldest first), the [console.error] entries (oldest
    first) and the suspended continuations. *)
Record World := mkWorld {
  view : View;
  net : list request;
  console : list (str * exn);
  pending : list task
}.

Definition initial_world : World :=
  {| view := initial_view; net := []; console := []; pending := [] |}.

(** *** State and exceptions

    A computation changes the world and either returns or throws; the
    changes made before a throw persist, as in JavaScript. *)
Definition M (A : Type) : Type := World -> (exn + A) * World.

Definition ret {A} (a : A) : M A := fun w => (inr a, w).

Definition bind {A B} (m : M A) (k : A -> M B) : M B :=
  fun w => match m w with
           | (inl e, w') => (inl e, w')
           | (inr a, w') => k a w'
           end.

Notation "x <- c ;; k" := (bind c (fun x => k))
  (at level 61, c at next level, right associativity).
Notation "c ;; k" := (bind c (fun _ => k))
  (at level 61, right associativity).

(** [await p] for a promise that has settled: its value, or a throw. *)
Definition await {A} (p : exn + A) : M A := fun w => (p, w).

(** [try { body } catch (err) { handler err }] *)
Definition try_catch {A} (body : M A) (handler : exn -> M A) : M A :=
  fun w => match body w with
           | (inl e, w') => handler e w'
           | (inr a, w') => (inr a, w')
           end.

(** [try { body } finally { fin }] *)
Definition try_finally {A} (body : M A) (fin : M unit) : M A :=
  fun w => match body w with
           | (r, w') => match fin w' with
                        | (inl e, w'') => (inl e, w'')
                        | (inr _, w'') => (r, w'')
                        end
           end.

(** The world a computation leaves, and whether it threw. *)
Definition exec {A} (m : M A) (w : World) : World := snd (m w).
Definition threw {A} (m : M A) (w : World) : bool :=
  match fst (m w) with inl _ => true | inr _ => false end.

Definition with_view (f : View -> View) : M unit :=
  fun w => (inr tt, {| view := f (view w); net := net w;
                       console := console w; pending := pending w |}).

Definition getTweet : M str := fun w => (inr (tweet (view w)), w).

Definition setTweet (x : str) : M unit :=
  with_view (fun v => {| tweet := x; tweets := tweets v; stats := stats v;
                         loading := loading v; error := error v |}).
Definition setTweets (x : value) : M unit :=
  with_view (fun v => {| tweet := tweet v; tweets := x; stats := stats v;
                         loading := loading v; error := error v |}).
Definition setStats (x : value) : M unit :=
  with_view (fun v => {| tweet := tweet v; tweets := tweets v; stats := x;
                         loading := loading v; error := error v |}).
Definition setLoading (x : bool) : M unit :=
  with_view (fun v => {| tweet := tweet v; tweets := tweets v; stats := stats v;
                         loading := x; error := error v |}).
Definition setError (x : value) : M unit :=
  with_view (fun v => {| tweet := tweet v; tweets := tweets v; stats := stats v;
                         loading := loading v; error := x |}).

(** [console.error(label, err)] *)
Definition console_error (label : str) (err : exn) : M unit :=
  fun w => (inr tt, {| view := view w; net := net w;
                       console := console w ++ [(label, err)];
                       pending := pending w |}).

(** [fetch(...)] followed by the suspension of the caller: the request is
    issued and the continuation [k] waits for it to settle. *)
Definition fetch (r : request) (k : task) : M unit :=
  fun w => (inr tt, {| view := view w; net := net w ++ [r];
                       console := console w;
                       pending := pending w ++ [k] |}).

(** *** The requests *)

Definition tweets_request : request :=
  {| req_method := GET; req_url := API_BASE_URL ++ lit "/tweets";
     req_headers := []; req_body := None |}.

Definition stats_request : request :=
  {| req_method := GET; req_url := API_BASE_URL ++ lit "/stats";
     req_headers := []; req_body := None |}.

Definition analyze_request (text : str) : request :=
  {| req_method := POST; req_url := API_BASE_URL ++ lit "/analyze";
     req_headers := [(lit "Content-Type", lit "application/json")];
     req_body := Some (VObj [(lit "text", VStr text)]) |}.

(** [tweetId] is the identifier as the template literal renders it. *)
Definition delete_request (tweetId : str) : request :=
  {| req_method := DELETE;
     req_url := API_BASE_URL ++ lit "/delete/" ++ tweetId;
     req_headers := []; req_body := None |}.

(** *** The handlers *)

(** Lines 19-29. *)
Definition fetchTweets : M unit := fetch tweets_request FetchTweetsK.

Definition fetchTweets_resume (o : outcome) : M unit :=
  try_catch
    (response <- await o ;;
     data <- await (json response) ;;
     if ok response
     then (t <- await (Get data (lit "tweets")) ;; setTweets t)
     else ret tt)
    (fun err => console_error (lit "Error fetching tweets:") err).

(** Lines 31-41. *)
Definition fetchStats : M unit := fetch stats_request FetchStatsK.

Definition fetchStats_resume (o : outcome) : M unit :=
  try_catch
    (response <- await o ;;
     data <- await (json response) ;;
     if ok response then setStats data else ret tt)
    (fun err => console_error (lit "Error fetching stats:") err).

(** Lines 43-80. *)
Definition analyzeTweet : M unit :=
  tweet <- getTweet ;;
  if negb (ToBoolean (VStr (trim tweet)))
  then setError (VStr (lit "Please enter a tweet to analyze"))
  else if 280 <? JS.length tweet
  then setError (VStr (lit "Tweet must be 280 characters or less"))
  else
    setLoading true ;;
    setError (VStr (lit "")) ;;
    fetch (analyze_request tweet) AnalyzeTweetK.

Definition analyzeTweet_resume (o : outcome) : M unit :=
  try_finally
    (try_catch
       (response <- await o ;;
        data <- await (json response) ;;
        if ok response
        then setTweet (lit "") ;; fetchTweets ;; fetchStats
        else (e <- await (Get data (lit "error")) ;;
              setError (or_else e (VStr (lit "Failed to analyze tweet")))))
       (fun err => setError (VStr (lit "Failed to connect to the server"))))
    (setLoading false).

(** Lines 82-95. *)
Definition deleteTweet (tweetId : str) : M unit :=
  fetch (delete_request tweetId) DeleteTweetK.

Definition deleteTweet_resume (o : outcome) : M unit :=
  try_catch
    (response <- await o ;;
     if ok response then fetchTweets ;; fetchStats else ret tt)
    (fun err => console_error (lit "Error deleting tweet:") err).

(** The pair of calls [fetchTweets(); fetchStats();] of lines 15-16, 70-71
    and 89-90, which the specification calls refreshAll. *)
Definition refreshAll : M unit := fetchTweets ;; fetchStats.

(** The effect of lines 14-17, run once when the component mounts. *)
Definition mount : M unit := fetchTweets ;; fetchStats.

(** Line 181: [onChange={(e) => setTweet(e.target.value)}]. *)
Definition onChange (value : str) : M unit := setTweet value.

(** Line 200: [disabled={loading || !tweet.trim()}]. *)
Definition button_disabled (v : View) : bool :=
  loading v || negb (ToBoolean (VStr (trim (tweet v)))).

(** Which continuation runs when a suspended task's request settles. *)
Definition resume (k : task) (o : outcome) : M unit :=
  match k with
  | FetchTweetsK => fetchTweets_resume o
  | FetchStatsK => fetchStats_resume o
  | AnalyzeTweetK => analyzeTweet_resume o
  | DeleteTweetK => deleteTweet_resume o
  end.

(** *** Observations used to state the properties *)

(** Requests are told apart by method and URL. *)
Definition same_endpoint (r0 r : request) : bool :=
  method_eqb (req_method r0) (req_method r) && str_eqb (req_url r0) (req_url r).

(** How many of the requests in [l] went to the endpoint of [r0]. *)
Definition issued (r0 : request) (l : list request) : nat :=
  List.length (filter (same_endpoint r0) l).

(** A 2xx response whose body parses to [data]. *)
Definition success (data : value) : outcome :=
  inr {| ok := true; json := inr data |}.

(** A call that did not fail: a response arrived and it is 2xx, whether
    or not its body can be read. *)
Definition succeeded (o : outcome) : Prop :=
  match o with
  | inl _ => False
  | inr r => ok r = true
  end.

(** A failed call: the request was rejected (transport error) or the
    response is not 2xx. *)
Definition failed (o : outcome) : Prop :=
  match o with
  | inl _ => True
  | inr r => ok r = false
  end.

(** The log entry a failed read leaves, if any: the [catch] clause runs
    for a rejected request and for an unreadable body, and for nothing
    else. *)
Definition logged (label : str) (o : outcome) : list (str * exn) :=
  match o with
  | inl e => [(label, e)]
  | inr r => match json r with
             | inl e => [(label, e)]
             | inr _ => []
             end
  end.

(** The error message [analyzeTweet] shows after a failed call. *)
Definition shown_error (o : outcome) : value :=
  match o with
  | inl _ => VStr (lit "Failed to connect to the server")
  | inr r =>
      match json r with
      | inl _ => VStr (lit "Failed to connect to the server")
      | inr data =>
          match Get data (lit "error") with
          | inl _ => VStr (lit "Failed to connect to the server")
          | inr e => or_else e (VStr (lit "Failed to analyze tweet"))
          end
      end
  end.

(** The error message as the specification words it: the message the
    service provided when there is one, and the generic failed-to-analyze
    message otherwise. *)
Definition service_error (o : outcome) : option value :=
  match o with
  | inl _ => None
  | inr r =>
      match json r with
      | inl _ => None
      | inr data =>
          match Get data (lit "error") with
          | inl _ => None
          | inr e => if ToBoolean e then Some e else None
          end
      end
  end.

Definition spec_error (o : outcome) : value :=
  match service_error o with
  | Some e => e
  | None => VStr (lit "Failed to analyze tweet")
  end.

(** One suspended continuation [k] leaves the pending set. *)
Fixpoint take (k : task) (l : list task) : list task :=
  match l with
  | [] => []
  | k' :: l' =>
      match k, k' with
      | FetchTweetsK, FetchTweetsK | FetchStatsK, FetchStatsK
      | AnalyzeTweetK, AnalyzeTweetK | DeleteTweetK, DeleteTweetK => l'
      | _, _ => k' :: take k l'
      end
  end.

(** The request of a suspended [k] settles with [o] and [k] runs. *)
Definition settle (k : task) (o : outcome) (w : World) : World :=
  exec (resume k o)
       {| view := view w; net := net w; console := console w;
          pending := take k (pending w) |}.

(** One full refresh: both reads are issued, then settle in either
    order with the responses [oT] (list) and [oS] (stats). *)
Definition refresh_round (stats_first : bool) (oT oS : outcome) (w : World)
  : World :=
  let w1 := exec refreshAll w in
  if stats_first
  then settle FetchTweetsK oT (settle FetchStatsK oS w1)
  else settle FetchStatsK oS (settle FetchTweetsK oT w1).

(** *** The rendered view (lines 132-200, the parts that compute) *)

(** [v === s] for a string literal [s]: strict equality holds for a
    string of the same code units and for nothing else. *)
Definition strict_equals_lit (v : value) (s : str) : bool :=
  match v with
  | VStr x => str_eqb x s
  | _ => false
  end.

(** Lines 97-99. *)
Definition getSentimentColor (sentiment : value) : str :=
  if strict_equals_lit sentiment (lit "positive")
  then lit "text-green-500" else lit "text-red-500".

(** Lines 101-103. *)
Definition getSentimentBg (sentiment : value) : str :=
  if strict_equals_lit sentiment (lit "positive")
  then lit "bg-green-50 border-green-200" else lit "bg-red-50 border-red-200".

(** [x?.k]: [undefined] when [x] is [null] or [undefined], [x.k]
    otherwise. *)
Definition optional_Get (x : value) (k : str) : exn + value :=
  match x with
  | VUndefined | VNull => inr VUndefined
  | _ => Get x k
  end.

(** Lines 149 and 161:
    [stats.sentiment_distribution.<label>?.count || 0], for the labels
    [positive] and [negative]. *)
Definition sentiment_count (label : str) (stats : value) : exn + value :=
  match Get stats (lit "sentiment_distribution") with
  | inl e => inl e
  | inr dist =>
      match Get dist label with
      | inl e => inl e
      | inr entry =>
          match optional_Get entry (lit "count") with
          | inl e => inl e
          | inr c => inr (or_else c (VNum PrimFloat.zero))
          end
      end
  end.

(** Line 132: the three stats cards are rendered under [stats && (...)].
    [None] when the cards are hidden, otherwise the positive and the
    negative count, or the exception that evaluating them throws. *)
Definition stats_cards (v : View) : option (exn + value * value) :=
  if ToBoolean (stats v)
  then Some match sentiment_count (lit "positive") (stats v) with
            | inl e => inl e
            | inr p => match sentiment_count (lit "negative") (stats v) with
                       | inl e => inl e
                       | inr n => inr (p, n)
                       end
            end
  else None.

(** Line 226: the guard [tweets.length === 0] of the history panel. *)
Definition history_is_empty (tweets : value) : exn + bool :=
  match tweets with
  | VUndefined | VNull => inl TypeError
  | VArr elems => inr (match elems with [] => true | _ => false end)
  | VStr s => inr (match s with [] => true | _ => false end)
  | VObj props =>
      inr (match own_property (lit "length") props with
           | VNum f => PrimFloat.eqb f PrimFloat.zero
           | _ => false
           end)
  | VBool _ | VNum _ => inr false
  end.

(** Line 192: the error banner is rendered under [error && (...)]. *)
Definition error_banner_shown (v : View) : bool := ToBoolean (error v).

(** *** Runs of the component *)

Definition task_eqb (a b : task) : bool :=
  match a, b with
  | FetchTweetsK, FetchTweetsK | FetchStatsK, FetchStatsK
  | AnalyzeTweetK, AnalyzeTweetK | DeleteTweetK, DeleteTweetK => true
  | _, _ => false
  end.

(** How many continuations of kind [k] are suspended. *)
Definition in_flight (k : task) (l : list task) : nat :=
  List.length (filter (task_eqb k) l).

(** One event.  With [ui = true] the handlers are driven through the
    rendered page: the textarea caps the draft at 280 code units
    ([maxLength={280}], line 185) and the Analyze button can be clicked
    only while it is enabled (line 200).  With [ui = false] the handlers
    are called freely. *)
Inductive step (ui : bool) : World -> World -> Prop :=
| step_change (s : str) (w : World) :
    (ui = true -> JS.length s <= 280) ->
    step ui w (exec (onChange s) w)
| step_analyze (w : World) :
    (ui = true -> button_disabled (view w) = false) ->
    step ui w (exec analyzeTweet w)
| step_delete (tweetId : str) (w : World) :
    step ui w (exec (deleteTweet tweetId) w)
| step_settle (k : task) (o : outcome) (w : World) :
    In k (pending w) ->
    step ui w (settle k o w).

(** The worlds the component can be in: it mounts, then events follow. *)
Inductive reachable (ui : bool) : World -> Prop :=
| reach_mount : reachable ui (exec mount initial_world)
| reach_step (w w' : World) :
    reachable ui w -> step ui w w' -> reachable ui w'.

(** What holds of every world reached through the page: the draft fits
    the cap, the loading flag tells whether a submission is in flight,
    and no error message is set while one is. *)
Definition ui_invariant (w : World) : Prop :=
  JS.length (tweet (view w)) <= 280 /\
  in_flight AnalyzeTweetK (pending w)
    = (if loading (view w) then 1%nat else 0%nat) /\
  (loading (view w) = true -> error (view w) = VStr (lit "")).

(** What a request the component issues can be. *)
Definition component_request (r : request) : Prop :=
  r = tweets_request \/ r = stats_request \/
  (exists tweetId, r = delete_request tweetId) \/
  (exists text, r = analyze_request text /\
                trim text <> [] /\ JS.length text <= 280).

(** *** Sample inputs *)

Definition great_day : str := lit "Great day!".

Definition drafting (t : str) : World :=
  {| view := {| tweet := t; tweets := VArr []; stats := VNull;
                loading := false; error := VStr [] |};
     net := []; console := []; pending := [] |}.

Definition spaces (n : nat) : str := repeat 32 n.

Definition letters (n : nat) : str := repeat 97 n.

Definition service_unavailable : outcome :=
  inr {| ok := false;
         json := inr (VObj [(lit "error", VStr (lit "service unavailable"))]) |}.

End App.

Import App.

(* ===================================================================== *)
(** ** Facts about the JavaScript fragment *)
(* ===================================================================== *)

Section TrimFacts.

Lemma trimStart_nil_iff (s : str) :
  trimStart s = [] <-> forallb isWhiteSpace s = true.
Proof.
  induction s as [|c s IH]; simpl.
  - split; reflexivity.
  - destruct (isWhiteSpace c); simpl.
    + exact IH.
    + split; discriminate.
Qed.

Lemma trimStart_suffix (s : str) :
  exists p, s = p ++ trimStart s /\ forallb isWhiteSpace p = true.
Proof.
  induction s as [|c s [p [Hp Hw]]]; simpl.
  - exists []. split; reflexivity.
  - destruct (isWhiteSpace c) eqn:Hc.
    + exists (c :: p). simpl. rewrite Hc, Hw. split; [now f_equal | reflexivity].
    + exists []. split; reflexivity.
Qed.

Lemma trimStart_head (s : str) :
  match trimStart s with
  | [] => True
  | c :: _ => isWhiteSpace c = false
  end.
Proof.
  induction s as [|c s IH]; simpl; [exact I|].
  destruct (isWhiteSpace c) eqn:Hc; [exact IH | exact Hc].
Qed.

Lemma forallb_rev {A} (f : A -> bool) (l : list A) :
  forallb f (rev l) = forallb f l.
Proof.
  induction l as [|a l IH]; simpl; [reflexivity|].
  rewrite forallb_app, IH. simpl. rewrite andb_true_r. apply andb_comm.
Qed.

(** [s.trim()] is empty exactly when [s] holds white space only. *)
Lemma trim_nil_iff (s : str) :
  trim s = [] <-> forallb isWhiteSpace s = true.
Proof.
  unfold trim, trimEnd. split.
  - intro H.
    assert (H1 : trimStart (rev (trimStart s)) = []).
    { rewrite <- (rev_involutive (trimStart (rev (trimStart s)))), H.
      reflexivity. }
    apply trimStart_nil_iff in H1. rewrite forallb_rev in H1.
    pose proof (trimStart_head s) as Hh.
    destruct (trimStart s) as [|c t] eqn:Ht.
    + now apply trimStart_nil_iff.
    + simpl in H1. rewrite Hh in H1. discriminate.
  - intro H. apply trimStart_nil_iff in H. rewrite H. reflexivity.
Qed.

Lemma length_zero_iff (s : str) : JS.length s = 0 <-> s = [].
Proof.
  unfold JS.length. destruct s; simpl; split; intro H;
    try reflexivity; try discriminate; lia.
Qed.

Lemma ToBoolean_str (s : str) : ToBoolean (VStr s) = false <-> s = [].
Proof. destruct s; simpl; split; intro H; try reflexivity; discriminate. Qed.

End TrimFacts.

(* ===================================================================== *)
(** ** Running the handlers *)
(* ===================================================================== *)

Ltac run :=
  unfold settle, resume, refreshAll, mount, onChange,
    analyzeTweet_resume, analyzeTweet, deleteTweet_resume, deleteTweet,
    fetchTweets_resume, fetchTweets, fetchStats_resume, fetchStats,
    try_finally, try_catch, bind, await, ret, fetch, console_error,
    getTweet, setTweet, setTweets, setStats, setLoading, setError,
    with_view, exec, threw in *;
  simpl in *.

Ltac split_outcome o :=
  let e := fresh "e" in
  let b := fresh "b" in
  let d := fresh "data" in
  destruct o as [e | [b [e | d]]]; try destruct b; simpl in *;
  try discriminate.

Section Validation.

Variable w : World.

Let draft := tweet (view w).

(** The three ways [analyzeTweet] can go, by the two guards of lines
    44-52. *)
Lemma analyzeTweet_empty :
  trim draft = [] ->
  exec analyzeTweet w =
  {| view := {| tweet := draft; tweets := tweets (view w);
                stats := stats (view w); loading := loading (view w);
                error := VStr (lit "Please enter a tweet to analyze") |};
     net := net w; console := console w; pending := pending w |}.
Proof. subst draft. intro H. run. rewrite H. reflexivity. Qed.

Lemma analyzeTweet_too_long :
  trim draft <> [] -> 280 < JS.length draft ->
  exec analyzeTweet w =
  {| view := {| tweet := draft; tweets := tweets (view w);
                stats := stats (view w); loading := loading (view w);
                error := VStr (lit "Tweet must be 280 characters or less") |};
     net := net w; console := console w; pending := pending w |}.
Proof.
  subst draft. intros H L. run.
  destruct (trim (tweet (view w))) eqn:E; [congruence|]. simpl.
  apply N.ltb_lt in L. rewrite L. reflexivity.
Qed.

Lemma analyzeTweet_accepted :
  trim draft <> [] -> JS.length draft <= 280 ->
  exec analyzeTweet w =
  {| view := {| tweet := draft; tweets := tweets (view w);
                stats := stats (view w); loading := true;
                error := VStr (lit "") |};
     net := net w ++ [analyze_request draft];
     console := console w;
     pending := pending w ++ [AnalyzeTweetK] |}.
Proof.
  subst draft. intros H L. run.
  destruct (trim (tweet (view w))) eqn:E; [congruence|]. simpl.
  apply N.ltb_ge in L. rewrite L. reflexivity.
Qed.

End Validation.

Lemma issued_app r l1 l2 : issued r (l1 ++ l2) = (issued r l1 + issued r l2)%nat.
Proof. unfold issued. rewrite filter_app, length_app. reflexivity. Qed.

Lemma issued_refresh_tweets :
  issued tweets_request [tweets_request; stats_request] = 1%nat.
Proof. reflexivity. Qed.

Lemma issued_refresh_stats :
  issued stats_request [tweets_request; stats_request] = 1%nat.
Proof. reflexivity. Qed.

Lemma issued_analyze_tweets t : issued tweets_request [analyze_request t] = 0%nat.
Proof. reflexivity. Qed.

Lemma issued_analyze_stats t : issued stats_request [analyze_request t] = 0%nat.
Proof. reflexivity. Qed.

(** What the continuation of [analyzeTweet] does with a 2xx response
    whose body parses. *)
Lemma analyzeTweet_resume_success (w : World) (data : value) :
  exec (analyzeTweet_resume (success data)) w =
  {| view := {| tweet := lit ""; tweets := tweets (view w);
                stats := stats (view w); loading := false;
                error := error (view w) |};
     net := net w ++ [tweets_request; stats_request];
     console := console w;
     pending := pending w ++ [FetchTweetsK; FetchStatsK] |}.
Proof. run. rewrite <- !app_assoc. reflexivity. Qed.

(** What it does with a failed call. *)
Lemma analyzeTweet_resume_failed (w : World) (o : outcome) :
  failed o ->
  exec (analyzeTweet_resume o) w =
  {| view := {| tweet := tweet (view w); tweets := tweets (view w);
                stats := stats (view w); loading := false;
                error := shown_error o |};
     net := net w; console := console w; pending := pending w |}.
Proof.
  intro F. split_outcome o; run; try reflexivity.
  destruct (Get data (lit "error")); reflexivity.
Qed.

(* ===================================================================== *)
(** ** Submission *)
(* ===================================================================== *)

Lemma analyzeTweet_keeps_draft (w : World) :
  tweet (view (exec analyzeTweet w)) = tweet (view w).
Proof.
  destruct (list_eq_dec N.eq_dec (trim (tweet (view w))) []) as [E|E].
  - rewrite analyzeTweet_empty by exact E. reflexivity.
  - destruct (N.lt_ge_cases 280 (JS.length (tweet (view w)))) as [L|L].
    + rewrite analyzeTweet_too_long by assumption. reflexivity.
    + rewrite analyzeTweet_accepted by assumption. reflexivity.
Qed.

Lemma analyzeTweet_issues_no_read (w : World) :
  issued tweets_request (net (exec analyzeTweet w)) = issued tweets_request (net w) /\
  issued stats_request (net (exec analyzeTweet w)) = issued stats_request (net w).
Proof.
  destruct (list_eq_dec N.eq_dec (trim (tweet (view w))) []) as [E|E].
  - rewrite analyzeTweet_empty by exact E. split; reflexivity.
  - destruct (N.lt_ge_cases 280 (JS.length (tweet (view w)))) as [L|L].
    + rewrite analyzeTweet_too_long by assumption. split; reflexivity.
    + rewrite analyzeTweet_accepted by assumption. simpl.
      rewrite !issued_app, issued_analyze_tweets, issued_analyze_stats.
      split; lia.
Qed.

(** What the continuation of [analyzeTweet] does with a 2xx response
    whose body cannot be read: [response.json()] rejects at line 66,
    before [response.ok] is looked at. *)
Lemma analyzeTweet_resume_unreadable (w : World) (e : exn) :
  exec (analyzeTweet_resume (inr {| ok := true; json := inl e |})) w =
  {| view := {| tweet := tweet (view w); tweets := tweets (view w);
                stats := stats (view w); loading := false;
                error := VStr (lit "Failed to connect to the server") |};
     net := net w; console := console w; pending := pending w |}.
Proof. reflexivity. Qed.

(** C1, as stated, fails: a 2xx response whose body cannot be read is a
    call that did not fail, yet the draft is kept and nothing is
    re-fetched. *)
Lemma analyzeTweet_success_counterexample :
  ~ (forall (w : World) (o : outcome),
       succeeded o ->
       let w2 := exec (analyzeTweet_resume o) (exec analyzeTweet w) in
       tweet (view w2) = lit "" /\
       issued tweets_request (net w2) = S (issued tweets_request (net w)) /\
       issued stats_request (net w2) = S (issued stats_request (net w)) /\
       loading (view w2) = false).
Proof.
  intro H.
  destruct (H (drafting great_day)
              (inr {| ok := true;
                      json := inl (Rejection (lit "Unexpected token")) |})
              eq_refl) as [E _].
  vm_compute in E. discriminate E.
Qed.

(** C1, amended.  A submission whose Analyze call is answered by a 2xx
    response ends with the loading flag false and throws nothing.  When
    the body of that response can be read, the draft is empty and exactly
    one more List fetch and one more Stats fetch have been issued than
    before the submission.  When the body cannot be read, the draft is
    the one submitted and the continuation issues no request. *)
Theorem analyzeTweet_success (w : World) (o : outcome) :
  succeeded o ->
  let w1 := exec analyzeTweet w in
  let w2 := exec (analyzeTweet_resume o) w1 in
  loading (view w2) = false /\
  threw (analyzeTweet_resume o) w1 = false /\
  (forall data, o = success data ->
     tweet (view w2) = lit "" /\
     issued tweets_request (net w2) = S (issued tweets_request (net w)) /\
     issued stats_request (net w2) = S (issued stats_request (net w))) /\
  (forall r e, o = inr r -> json r = inl e ->
     tweet (view w2) = tweet (view w) /\
     net w2 = net w1 /\
     issued tweets_request (net w2) = issued tweets_request (net w) /\
     issued stats_request (net w2) = issued stats_request (net w)).
Proof.
  intros S w1 w2.
  pose proof (analyzeTweet_keeps_draft w) as Kd.
  pose proof (analyzeTweet_issues_no_read w) as [Kt Ks].
  fold w1 in Kd, Kt, Ks.
  destruct o as [x | [b [x | d]]]; simpl in S; [contradiction | | ];
    subst b; subst w2.
  - rewrite analyzeTweet_resume_unreadable. cbn [view net loading tweet].
    split; [reflexivity|]. split; [reflexivity|]. split.
    + intros data D. discriminate D.
    + intros r e _ _. split; [exact Kd|]. split; [reflexivity|].
      split; assumption.
  - change (inr {| ok := true; json := inr d |}) with (success d).
    rewrite analyzeTweet_resume_success. cbn [view net loading tweet].
    split; [reflexivity|]. split; [reflexivity|]. split.
    + intros data _.
      rewrite !issued_app, issued_refresh_tweets, issued_refresh_stats.
      split; [reflexivity|]. split; lia.
    + intros r e R J. injection R as <-. discriminate J.
Qed.

Lemma analyzeTweet_success_witness :
  let o := success (VObj [(lit "sentiment", VStr (lit "positive"))]) in
  let w := drafting great_day in
  let w2 := exec (analyzeTweet_resume o) (exec analyzeTweet w) in
  succeeded o /\
  loading (view w2) = false /\
  tweet (view w2) = lit "" /\
  issued tweets_request (net w2) = 1%nat /\
  issued stats_request (net w2) = 1%nat.
Proof.
  destruct (@analyzeTweet_success (drafting great_day)
              (success (VObj [(lit "sentiment", VStr (lit "positive"))]))
              eq_refl) as (Hl & _ & Hs & _).
  destruct (Hs _ eq_refl) as (Ht & Hn & Hm).
  split; [reflexivity|]. split; [exact Hl|]. split; [exact Ht|].
  split; [exact Hn | exact Hm].
Defined.

(** C2.  A submission whose Analyze call fails (transport error or non-2xx
    response) keeps the draft, issues no request at all, and leaves the
    item list and the stats snapshot as they were. *)
Theorem analyzeTweet_failure_frame (w : World) (o : outcome) :
  failed o ->
  let w' := exec (analyzeTweet_resume o) w in
  tweet (view w') = tweet (view w) /\
  net w' = net w /\
  pending w' = pending w /\
  tweets (view w') = tweets (view w) /\
  stats (view w') = stats (view w).
Proof.
  intros F w'. subst w'. rewrite analyzeTweet_resume_failed by exact F.
  simpl. repeat split.
Qed.

Lemma analyzeTweet_failure_frame_witness :
  let o : outcome := inr {| ok := false; json := inr VNull |} in
  let w := exec analyzeTweet (drafting great_day) in
  let w' := exec (analyzeTweet_resume o) w in
  failed o /\
  tweet (view w') = great_day /\
  net w' = [analyze_request great_day] /\
  pending w' = [AnalyzeTweetK] /\
  tweets (view w') = VArr [] /\
  stats (view w') = VNull.
Proof.
  split; [reflexivity|].
  exact (analyzeTweet_failure_frame
           (exec analyzeTweet (drafting great_day))
           (inr {| ok := false; json := inr VNull |}) eq_refl).
Defined.

(** C3.  A draft whose trimmed length is zero: submit sets the
    empty-input message and issues no network call. *)
Theorem analyzeTweet_rejects_empty (w : World) :
  JS.length (trim (tweet (view w))) = 0 ->
  let w' := exec analyzeTweet w in
  error (view w') = VStr (lit "Please enter a tweet to analyze") /\
  net w' = net w /\
  pending w' = pending w.
Proof.
  intros H w'. subst w'. apply length_zero_iff in H.
  rewrite analyzeTweet_empty by exact H. simpl. repeat split.
Qed.

Lemma analyzeTweet_rejects_empty_witness :
  let w := drafting (lit "  ") in
  JS.length (trim (tweet (view w))) = 0 /\
  error (view (exec analyzeTweet w)) = VStr (lit "Please enter a tweet to analyze") /\
  net (exec analyzeTweet w) = [] /\
  pending (exec analyzeTweet w) = [].
Proof.
  split; [reflexivity|].
  exact (analyzeTweet_rejects_empty (drafting (lit "  ")) eq_refl).
Defined.

(** C4, as stated, fails: a draft of 281 spaces is longer than 280
    characters, yet submit does not set the length message. *)
Lemma analyzeTweet_too_long_counterexample :
  ~ (forall w : World,
       280 < JS.length (tweet (view w)) ->
       error (view (exec analyzeTweet w))
         = VStr (lit "Tweet must be 280 characters or less") /\
       net (exec analyzeTweet w) = net w).
Proof.
  intro H. destruct (H (drafting (spaces 281)) eq_refl) as [E _].
  vm_compute in E. discriminate E.
Qed.

(** C4, amended.  A draft longer than 280 characters never reaches the
    network; it gets the length message unless it is white space only, in
    which case it gets the empty-input message. *)
Theorem analyzeTweet_rejects_too_long (w : World) :
  280 < JS.length (tweet (view w)) ->
  let w' := exec analyzeTweet w in
  net w' = net w /\
  pending w' = pending w /\
  (trim (tweet (view w)) <> [] ->
   error (view w') = VStr (lit "Tweet must be 280 characters or less")) /\
  (trim (tweet (view w)) = [] ->
   error (view w') = VStr (lit "Please enter a tweet to analyze")).
Proof.
  intros L w'. subst w'.
  destruct (list_eq_dec N.eq_dec (trim (tweet (view w))) []) as [E|E].
  - rewrite analyzeTweet_empty by exact E. cbn [view net pending error].
    split; [reflexivity|]. split; [reflexivity|].
    split; [intro N; contradiction | reflexivity].
  - rewrite analyzeTweet_too_long by assumption. cbn [view net pending error].
    split; [reflexivity|]. split; [reflexivity|].
    split; [reflexivity | intro N; contradiction].
Qed.

Lemma analyzeTweet_rejects_too_long_witness :
  let w := drafting (letters 281) in
  280 < JS.length (tweet (view w)) /\
  net (exec analyzeTweet w) = [] /\
  error (view (exec analyzeTweet w))
    = VStr (lit "Tweet must be 280 characters or less").
Proof.
  pose proof (analyzeTweet_rejects_too_long (drafting (letters 281)) eq_refl)
    as [Hn [_ [He _]]].
  split; [reflexivity|]. split; [exact Hn|].
  apply He. vm_compute. discriminate.
Defined.

(** C5.  A draft with trimmed length at least 1 and length at most 280:
    submit sets loading, clears the error and issues exactly one request,
    the Analyze call: a POST to the analyze endpoint, declared as JSON,
    whose body is the object with the single property [text] holding the
    draft as typed. *)
Theorem analyzeTweet_submits (w : World) :
  1 <= JS.length (trim (tweet (view w))) ->
  JS.length (tweet (view w)) <= 280 ->
  let w' := exec analyzeTweet w in
  loading (view w') = true /\
  error (view w') = VStr (lit "") /\
  net w' = net w ++
    [ {| req_method := POST;
         req_url := lit "http://localhost:5000/api/analyze";
         req_headers := [(lit "Content-Type", lit "application/json")];
         req_body := Some (VObj [(lit "text", VStr (tweet (view w)))]) |} ] /\
  pending w' = pending w ++ [AnalyzeTweetK] /\
  tweet (view w') = tweet (view w).
Proof.
  intros T L w'. subst w'.
  assert (E : trim (tweet (view w)) <> []).
  { intro E. rewrite E in T. unfold JS.length in T. simpl in T. lia. }
  rewrite analyzeTweet_accepted by assumption.
  cbn [view net pending loading error tweet].
  split; [reflexivity|]. split; [reflexivity|].
  split; [reflexivity|]. split; reflexivity.
Qed.

Lemma analyzeTweet_submits_witness :
  let w := drafting great_day in
  loading (view (exec analyzeTweet w)) = true /\
  error (view (exec analyzeTweet w)) = VStr (lit "") /\
  net (exec analyzeTweet w) =
    [ {| req_method := POST;
         req_url := lit "http://localhost:5000/api/analyze";
         req_headers := [(lit "Content-Type", lit "application/json")];
         req_body := Some (VObj [(lit "text", VStr (lit "Great day!"))]) |} ] /\
  pending (exec analyzeTweet w) = [AnalyzeTweetK] /\
  tweet (view (exec analyzeTweet w)) = great_day.
Proof.
  apply (analyzeTweet_submits (drafting great_day)).
  - vm_compute. discriminate.
  - vm_compute. discriminate.
Defined.

(** C6, as stated, fails: after a transport error the message shown is
    neither a service-provided one nor the failed-to-analyze one. *)
Lemma analyzeTweet_error_counterexample :
  ~ (forall (w : World) (o : outcome),
       failed o ->
       error (view (exec (analyzeTweet_resume o) w)) = spec_error o).
Proof.
  intro H.
  specialize (H (drafting great_day) (inl (Rejection (lit "Failed to fetch"))) I).
  vm_compute in H. discriminate H.
Qed.

(** C6, amended.  After a failed Analyze call the draft is kept, loading
    is false, and the message shown is: the [error] property of the
    response body when the body is readable, not [null], and that property
    is truthy; "Failed to analyze tweet" when the body is readable, not
    [null], and the property is missing or falsy; "Failed to connect to
    the server" when the request was rejected or the body is unreadable or
    [null]. *)
Theorem analyzeTweet_error_shown (w : World) (o : outcome) :
  failed o ->
  let w' := exec (analyzeTweet_resume o) w in
  error (view w') = shown_error o /\
  tweet (view w') = tweet (view w) /\
  loading (view w') = false /\
  (forall e, service_error o = Some e -> error (view w') = e) /\
  (forall r data e,
     o = inr r -> json r = inr data -> Get data (lit "error") = inr e ->
     ToBoolean e = false ->
     error (view w') = VStr (lit "Failed to analyze tweet")) /\
  ((forall r data e,
      o = inr r -> json r = inr data -> Get data (lit "error") <> inr e) ->
   error (view w') = VStr (lit "Failed to connect to the server")).
Proof.
  intros F w'. subst w'. rewrite analyzeTweet_resume_failed by exact F.
  simpl. repeat split.
  - intros e S. unfold service_error, shown_error in *.
    destruct o as [x | r]; [discriminate|].
    destruct (json r) as [x | data]; [discriminate|].
    destruct (Get data (lit "error")) as [x | v]; [discriminate|].
    unfold or_else. destruct (ToBoolean v); congruence.
  - intros r data e -> J G T. unfold shown_error. rewrite J, G.
    unfold or_else. rewrite T. reflexivity.
  - intros N. unfold shown_error.
    destruct o as [x | r]; [reflexivity|].
    destruct (json r) as [x | data] eqn:J; [reflexivity|].
    destruct (Get data (lit "error")) as [x | v] eqn:G; [reflexivity|].
    exfalso. exact (N r data v eq_refl J G).
Qed.

Lemma analyzeTweet_error_shown_witness :
  let w := exec analyzeTweet (drafting great_day) in
  let w' := exec (analyzeTweet_resume service_unavailable) w in
  failed service_unavailable /\
  error (view w') = VStr (lit "service unavailable") /\
  tweet (view w') = great_day /\
  loading (view w') = false.
Proof.
  pose proof (analyzeTweet_error_shown
                (exec analyzeTweet (drafting great_day))
                service_unavailable eq_refl) as [He [Ht [Hl _]]].
  split; [reflexivity|]. split; [exact He|]. split; [exact Ht | exact Hl].
Defined.

(** C10.  The empty-input check comes first: a draft of white space only,
    however long, gets the empty-input message, not the length message,
    and issues no network call. *)
Theorem analyzeTweet_whitespace_first (w : World) :
  forallb isWhiteSpace (tweet (view w)) = true ->
  let w' := exec analyzeTweet w in
  error (view w') = VStr (lit "Please enter a tweet to analyze") /\
  error (view w') <> VStr (lit "Tweet must be 280 characters or less") /\
  net w' = net w /\
  pending w' = pending w.
Proof.
  intros H w'. subst w'. apply trim_nil_iff in H.
  rewrite analyzeTweet_empty by exact H. simpl.
  repeat split. vm_compute. discriminate.
Qed.

Lemma analyzeTweet_whitespace_first_witness :
  let w := drafting (spaces 281) in
  280 < JS.length (tweet (view w)) /\
  error (view (exec analyzeTweet w)) = VStr (lit "Please enter a tweet to analyze") /\
  error (view (exec analyzeTweet w)) <> VStr (lit "Tweet must be 280 characters or less") /\
  net (exec analyzeTweet w) = [] /\
  pending (exec analyzeTweet w) = [].
Proof.
  split; [reflexivity|].
  exact (analyzeTweet_whitespace_first (drafting (spaces 281)) eq_refl).
Defined.

(* ===================================================================== *)
(** ** Deletion and refresh *)
(* ===================================================================== *)

(** A failed read changes nothing but the console. *)
Lemma fetchTweets_resume_failed (w : World) (o : outcome) :
  failed o ->
  exec (fetchTweets_resume o) w =
  {| view := view w; net := net w;
     console := console w ++ logged (lit "Error fetching tweets:") o;
     pending := pending w |}.
Proof.
  intro F. destruct w as [v n c p].
  split_outcome o; run; rewrite ?app_nil_r; reflexivity.
Qed.

Lemma fetchStats_resume_failed (w : World) (o : outcome) :
  failed o ->
  exec (fetchStats_resume o) w =
  {| view := view w; net := net w;
     console := console w ++ logged (lit "Error fetching stats:") o;
     pending := pending w |}.
Proof.
  intro F. destruct w as [v n c p].
  split_outcome o; run; rewrite ?app_nil_r; reflexivity.
Qed.

(** Either read touches its own cell only, whatever the response. *)
Lemma fetchTweets_resume_frame (w : World) (o : outcome) :
  let w' := exec (fetchTweets_resume o) w in
  tweet (view w') = tweet (view w) /\ stats (view w') = stats (view w) /\
  loading (view w') = loading (view w) /\ error (view w') = error (view w) /\
  net w' = net w /\ pending w' = pending w.
Proof.
  destruct o as [e | [b [e | d]]]; try destruct b; run;
    try (destruct (Get d (lit "tweets")); simpl); repeat split.
Qed.

Lemma fetchStats_resume_frame (w : World) (o : outcome) :
  let w' := exec (fetchStats_resume o) w in
  tweet (view w') = tweet (view w) /\ tweets (view w') = tweets (view w) /\
  loading (view w') = loading (view w) /\ error (view w') = error (view w) /\
  net w' = net w /\ pending w' = pending w.
Proof.
  destruct o as [e | [b [e | d]]]; try destruct b; run; repeat split.
Qed.

(** C7.  [deleteTweet(id)] followed by a successful delete issues exactly
    one refresh cycle: one List fetch and one Stats fetch, and nothing
    else.  Followed by a failed delete it issues nothing and leaves the
    view (draft, items, stats, loading, error) as it was; the console
    gains one entry when the request was rejected and none when the
    response is not 2xx. *)
Theorem deleteTweet_outcomes (tweetId : str) (w : World) (o : outcome) :
  let w1 := exec (deleteTweet tweetId) w in
  let w2 := exec (deleteTweet_resume o) w1 in
  net w1 = net w ++ [delete_request tweetId] /\
  view w2 = view w /\
  match o with
  | inr r =>
      console w2 = console w /\
      if ok r
      then net w2 = net w1 ++ [tweets_request; stats_request] /\
           issued tweets_request (net w2) = S (issued tweets_request (net w1)) /\
           issued stats_request (net w2) = S (issued stats_request (net w1))
      else net w2 = net w1 /\ pending w2 = pending w1
  | inl e =>
      console w2 = console w ++ [(lit "Error deleting tweet:", e)] /\
      net w2 = net w1 /\ pending w2 = pending w1
  end.
Proof.
  destruct w as [v n c p].
  destruct o as [e | [b j]]; try destruct b; run; repeat split.
  - rewrite <- !app_assoc. reflexivity.
  - rewrite !issued_app. cbn. lia.
  - rewrite !issued_app. cbn. lia.
Qed.

(** C8, as stated, fails: a List fetch answered with a non-2xx response
    whose body is readable is a failure, and it is not logged. *)
Lemma fetchTweets_unlogged_counterexample :
  ~ (forall (w : World) (o : outcome),
       failed o ->
       console (exec (fetchTweets_resume o) w) <> console w).
Proof.
  intro H.
  apply (H initial_world (inr {| ok := false; json := inr (VObj []) |}) eq_refl).
  reflexivity.
Qed.

(** C8, amended.  A failed List fetch and a failed Stats fetch each leave
    the whole view as it was (the other read's cell, its own cell, the
    error message and the loading flag) and issue nothing; the failure is
    logged when the request was rejected or the body is unreadable, and
    is not logged when the response is non-2xx with a readable body.
    Whatever the outcome, neither read touches the other's cell, the
    error message or the loading flag. *)
Theorem refresh_failures_independent (w : World) (o : outcome) :
  (failed o ->
   let wT := exec (fetchTweets_resume o) w in
   let wS := exec (fetchStats_resume o) w in
   view wT = view w /\ net wT = net w /\
   console wT = console w ++ logged (lit "Error fetching tweets:") o /\
   view wS = view w /\ net wS = net w /\
   console wS = console w ++ logged (lit "Error fetching stats:") o) /\
  (let wT := exec (fetchTweets_resume o) w in
   stats (view wT) = stats (view w) /\
   error (view wT) = error (view w) /\
   loading (view wT) = loading (view w)) /\
  (let wS := exec (fetchStats_resume o) w in
   tweets (view wS) = tweets (view w) /\
   error (view wS) = error (view w) /\
   loading (view wS) = loading (view w)).
Proof.
  split; [| split].
  - intros F wT wS. subst wT wS.
    rewrite fetchTweets_resume_failed, fetchStats_resume_failed by exact F.
    simpl. repeat split.
  - intros wT. subst wT.
    destruct (fetchTweets_resume_frame w o) as (_ & ? & ? & ? & _).
    repeat split; assumption.
  - intros wS. subst wS.
    destruct (fetchStats_resume_frame w o) as (_ & ? & ? & ? & _).
    repeat split; assumption.
Qed.

Lemma refresh_failures_independent_witness :
  let o : outcome := inl (Rejection (lit "Failed to fetch")) in
  let w := exec refreshAll initial_world in
  failed o /\
  view (exec (fetchTweets_resume o) w) = initial_view /\
  console (exec (fetchTweets_resume o) w)
    = [(lit "Error fetching tweets:", Rejection (lit "Failed to fetch"))] /\
  view (exec (fetchStats_resume o) w) = initial_view /\
  console (exec (fetchStats_resume o) w)
    = [(lit "Error fetching stats:", Rejection (lit "Failed to fetch"))].
Proof.
  destruct (refresh_failures_independent
              (exec refreshAll initial_world)
              (inl (Rejection (lit "Failed to fetch")))) as [H _].
  destruct (H I) as (Hv & _ & Hc & Hv' & _ & Hc').
  split; [exact I|].
  split; [exact Hv|]. split; [exact Hc|]. split; [exact Hv' | exact Hc'].
Defined.

(** The view after one refresh depends on the view before and on the two
    responses only, not on the order in which they arrive. *)
Lemma refresh_round_view (b : bool) (oT oS : outcome) (w : World) :
  view (refresh_round b oT oS w) =
  view (exec (fetchStats_resume oS) (exec (fetchTweets_resume oT) w)).
Proof.
  destruct w as [v n c p]. unfold refresh_round.
  destruct b;
    destruct oT as [e | [bT [e | dT]]]; try destruct bT;
    destruct oS as [e' | [bS [e' | dS]]]; try destruct bS;
    run; try reflexivity;
    destruct (Get dT (lit "tweets")); reflexivity.
Qed.

Lemma refresh_twice_view (oT oS : outcome) (w : World) :
  let once w := exec (fetchStats_resume oS) (exec (fetchTweets_resume oT) w) in
  view (once (once w)) = view (once w).
Proof.
  destruct w as [v n c p].
  destruct oT as [e | [bT [e | dT]]]; try destruct bT;
    destruct oS as [e' | [bS [e' | dS]]]; try destruct bS;
    run; try reflexivity;
    destruct (Get dT (lit "tweets")); reflexivity.
Qed.

(** C9.  Two refreshes in a row against a backend that answers the List
    fetch with [oT] and the Stats fetch with [oS] both times, the answers
    arriving in any order: the view after the second refresh is the view
    after the first. *)
Theorem refreshAll_idempotent (b1 b2 : bool) (oT oS : outcome) (w : World) :
  let w1 := refresh_round b1 oT oS w in
  let w2 := refresh_round b2 oT oS w1 in
  view w2 = view w1.
Proof.
  intros w1 w2. subst w2 w1.
  assert (E : forall wa wb, view wa = view wb ->
              view (exec (fetchStats_resume oS) (exec (fetchTweets_resume oT) wa))
              = view (exec (fetchStats_resume oS) (exec (fetchTweets_resume oT) wb))).
  { clear. intros [va na ca pa] [vb nb cb pb] Hv. simpl in Hv. subst vb.
    destruct oT as [e | [bT [e | dT]]]; try destruct bT;
      destruct oS as [e' | [bS [e' | dS]]]; try destruct bS;
      run; try reflexivity;
      destruct (Get dT (lit "tweets")); reflexivity. }
  rewrite (refresh_round_view b2 oT oS).
  rewrite (E _ _ (refresh_round_view b1 oT oS w)).
  rewrite (refresh_round_view b1 oT oS).
  exact (refresh_twice_view oT oS w).
Qed.

(* ===================================================================== *)
(** ** Every exception is handled *)
(* ===================================================================== *)

(** No continuation lets an exception escape, whatever the response: a
    rejected request, an unreadable body and a [null] body all end in a
    [catch] clause. *)
Theorem continuations_never_throw (k : task) (o : outcome) (w : World) :
  threw (resume k o) w = false.
Proof.
  destruct k; destruct o as [e | [b [e | d]]]; try destruct b;
    run; try reflexivity.
  - destruct (Get d (lit "tweets")); reflexivity.
  - destruct (Get d (lit "error")); reflexivity.
Qed.

(** Whatever the response, the continuation of [analyzeTweet] ends with
    the loading flag false and touches neither the item list nor the
    stats snapshot. *)
Theorem analyzeTweet_resume_always_unlocks (o : outcome) (w : World) :
  let w' := exec (analyzeTweet_resume o) w in
  loading (view w') = false /\
  tweets (view w') = tweets (view w) /\
  stats (view w') = stats (view w) /\
  console w' = console w.
Proof.
  destruct o as [e | [b [e | d]]]; try destruct b; run;
    try (destruct (Get d (lit "error")); simpl); repeat split.
Qed.

(** A 2xx Analyze response whose body cannot be read is handled as a
    failure: the draft is kept, no refresh is issued and the connection
    message is shown. *)
Theorem analyzeTweet_unreadable_success (e : exn) (w : World) :
  let w' := exec (analyzeTweet_resume (inr {| ok := true; json := inl e |})) w in
  tweet (view w') = tweet (view w) /\
  net w' = net w /\
  pending w' = pending w /\
  error (view w') = VStr (lit "Failed to connect to the server") /\
  loading (view w') = false.
Proof. run. repeat split. Qed.

(* ===================================================================== *)
(** ** What a successful read stores *)
(* ===================================================================== *)

(** A 2xx List response whose body is an object replaces the item list
    by the body's [tweets] property, whatever the list held before and
    whatever that property is.  Nothing else changes. *)
Theorem fetchTweets_replaces_list (props : list (str * value)) (w : World) :
  let w' := exec (fetchTweets_resume (success (VObj props))) w in
  tweets (view w') = own_property (lit "tweets") props /\
  tweet (view w') = tweet (view w) /\ stats (view w') = stats (view w) /\
  loading (view w') = loading (view w) /\ error (view w') = error (view w) /\
  net w' = net w /\ console w' = console w /\ pending w' = pending w.
Proof. run. repeat split. Qed.

(** A 2xx List response whose body is an object without a [tweets]
    property sets the item list to [undefined]; nothing is logged, and
    the history panel's guard [tweets.length === 0] then throws. *)
Theorem fetchTweets_missing_key (props : list (str * value)) (w : World) :
  own_property (lit "tweets") props = VUndefined ->
  let w' := exec (fetchTweets_resume (success (VObj props))) w in
  tweets (view w') = VUndefined /\
  console w' = console w /\
  history_is_empty (tweets (view w')) = inl TypeError.
Proof. intro H. run. rewrite H. repeat split. Qed.

Lemma fetchTweets_missing_key_witness :
  let w' := exec (fetchTweets_resume
                    (success (VObj [(lit "message", VStr (lit "ok"))])))
                 (exec mount initial_world) in
  tweets (view w') = VUndefined /\
  console w' = [] /\
  history_is_empty (tweets (view w')) = inl TypeError.
Proof.
  exact (fetchTweets_missing_key [(lit "message", VStr (lit "ok"))]
           (exec mount initial_world) eq_refl).
Defined.

(** A 2xx List response whose body is [null] keeps the previous list and
    logs the TypeError raised by reading [data.tweets]. *)
Theorem fetchTweets_null_body (w : World) :
  let w' := exec (fetchTweets_resume (success VNull)) w in
  view w' = view w /\
  console w' = console w ++ [(lit "Error fetching tweets:", TypeError)].
Proof. destruct w as [v n c p]. run. split; reflexivity. Qed.

(** A 2xx Stats response stores the body as it is, even [null] or a body
    without the expected fields, and changes nothing else; the stats
    cards are then shown exactly when the body is truthy. *)
Theorem fetchStats_stores_body (data : value) (w : World) :
  let w' := exec (fetchStats_resume (success data)) w in
  stats (view w') = data /\
  tweet (view w') = tweet (view w) /\ tweets (view w') = tweets (view w) /\
  loading (view w') = loading (view w) /\ error (view w') = error (view w) /\
  net w' = net w /\ console w' = console w /\ pending w' = pending w /\
  (stats_cards (view w') = None <-> ToBoolean data = false).
Proof.
  run. repeat split; unfold stats_cards; simpl;
    destruct (ToBoolean data); intros; try reflexivity; discriminate.
Qed.

(* ===================================================================== *)
(** ** The rendered view *)
(* ===================================================================== *)

Lemma str_eqb_eq (a b : str) : str_eqb a b = true <-> a = b.
Proof.
  revert b. induction a as [|x a IH]; intros [|y b]; simpl;
    try (split; [discriminate | discriminate]); try (split; reflexivity).
  rewrite andb_true_iff, N.eqb_eq, IH. split.
  - intros [-> ->]. reflexivity.
  - intro H. injection H as -> ->. split; reflexivity.
Qed.

(** An item gets the positive colour and the positive background exactly
    when its sentiment is the string "positive"; any other value, a
    string in another case or an unknown label included, gets the
    negative styling from both helpers. *)
Theorem sentiment_styling (sentiment : value) :
  (getSentimentColor sentiment = lit "text-green-500"
   <-> sentiment = VStr (lit "positive")) /\
  (getSentimentBg sentiment = lit "bg-green-50 border-green-200"
   <-> sentiment = VStr (lit "positive")) /\
  (sentiment <> VStr (lit "positive") ->
   getSentimentColor sentiment = lit "text-red-500" /\
   getSentimentBg sentiment = lit "bg-red-50 border-red-200").
Proof.
  unfold getSentimentColor, getSentimentBg.
  destruct (strict_equals_lit sentiment (lit "positive")) eqn:E.
  - assert (sentiment = VStr (lit "positive")) as ->.
    { destruct sentiment; simpl in E; try discriminate.
      apply str_eqb_eq in E. now subst. }
    repeat split; intros; try reflexivity; congruence.
  - assert (N : sentiment <> VStr (lit "positive")).
    { intros ->. simpl in E. discriminate. }
    repeat split; intros; try reflexivity; try contradiction;
      exfalso; vm_compute in H; discriminate.
Qed.

Lemma sentiment_styling_witness :
  getSentimentColor (VStr (lit "Positive")) = lit "text-red-500" /\
  getSentimentBg (VStr (lit "Positive")) = lit "bg-red-50 border-red-200".
Proof.
  destruct (sentiment_styling (VStr (lit "Positive"))) as (_ & _ & H).
  apply H. vm_compute. discriminate.
Defined.

(** A stats snapshot that is truthy but has no [sentiment_distribution]
    (an empty object, a string, a number) makes the stats cards throw:
    the cards are rendered, and reading the positive count raises a
    TypeError. *)
Theorem stats_cards_missing_distribution (v : View) :
  ToBoolean (stats v) = true ->
  Get (stats v) (lit "sentiment_distribution") = inr VUndefined ->
  stats_cards v = Some (inl TypeError).
Proof.
  intros T G. unfold stats_cards, sentiment_count. rewrite T, G. reflexivity.
Qed.

Lemma stats_cards_missing_distribution_witness :
  stats_cards
    (view (exec (fetchStats_resume (success (VObj []))) initial_world))
  = Some (inl TypeError).
Proof.
  exact (stats_cards_missing_distribution
           (view (exec (fetchStats_resume (success (VObj []))) initial_world))
           eq_refl eq_refl).
Defined.

(** When the distribution is an object that does not list a sentiment
    label, or lists it as [null], the count displayed for that label
    (positive or negative) is 0. *)
Theorem sentiment_count_missing_label
  (label : str) (sp props : list (str * value)) :
  In label [lit "positive"; lit "negative"] ->
  own_property (lit "sentiment_distribution") sp = VObj props ->
  own_property label props = VUndefined \/ own_property label props = VNull ->
  sentiment_count label (VObj sp) = inr (VNum PrimFloat.zero).
Proof.
  intros _ D L. unfold sentiment_count. simpl. rewrite D. simpl.
  destruct L as [-> | ->]; reflexivity.
Qed.

Lemma sentiment_count_missing_label_witness :
  sentiment_count (lit "negative")
    (VObj [(lit "total_tweets", VNum PrimFloat.one);
           (lit "sentiment_distribution",
            VObj [(lit "positive", VObj [(lit "count", VNum PrimFloat.one)])])])
  = inr (VNum PrimFloat.zero).
Proof.
  apply (@sentiment_count_missing_label (lit "negative")
           [(lit "total_tweets", VNum PrimFloat.one);
            (lit "sentiment_distribution",
             VObj [(lit "positive", VObj [(lit "count", VNum PrimFloat.one)])])]
           [(lit "positive", VObj [(lit "count", VNum PrimFloat.one)])]).
  - right. left. reflexivity.
  - reflexivity.
  - left. reflexivity.
Defined.

(** When the distribution is an object, reading the positive or the
    negative count never throws, and what is displayed is truthy or the
    number 0. *)
Theorem sentiment_count_total (label : str) (sp props : list (str * value)) :
  In label [lit "positive"; lit "negative"] ->
  own_property (lit "sentiment_distribution") sp = VObj props ->
  exists c, sentiment_count label (VObj sp) = inr c /\
            (ToBoolean c = true \/ c = VNum PrimFloat.zero).
Proof.
  intros _ D. unfold sentiment_count. simpl. rewrite D. simpl.
  assert (T : forall c, exists c', inr (or_else c (VNum PrimFloat.zero))
                                   = (inr c' : exn + value) /\
                         (ToBoolean c' = true \/ c' = VNum PrimFloat.zero)).
  { intro c. exists (or_else c (VNum PrimFloat.zero)). split; [reflexivity|].
    unfold or_else. destruct (ToBoolean c) eqn:E; [left; exact E | right; reflexivity]. }
  destruct (own_property label props); simpl; apply T.
Qed.

Lemma sentiment_count_total_witness :
  exists c,
    sentiment_count (lit "positive")
      (VObj [(lit "sentiment_distribution",
              VObj [(lit "positive", VObj [(lit "count", VNum PrimFloat.one)])])])
    = inr c /\ (ToBoolean c = true \/ c = VNum PrimFloat.zero).
Proof.
  apply (@sentiment_count_total (lit "positive")
           [(lit "sentiment_distribution",
             VObj [(lit "positive", VObj [(lit "count", VNum PrimFloat.one)])])]
           [(lit "positive", VObj [(lit "count", VNum PrimFloat.one)])]).
  - left. reflexivity.
  - reflexivity.
Defined.

(* ===================================================================== *)
(** ** The Analyze button *)
(* ===================================================================== *)

Lemma nonblank_iff (s : str) : ToBoolean (VStr (trim s)) = true <-> trim s <> [].
Proof.
  destruct (trim s); simpl; split; intro H; try reflexivity;
    try discriminate; congruence.
Qed.

(** The button is disabled exactly while a submission is in flight or
    the draft holds white space only. *)
Theorem button_disabled_iff (v : View) :
  button_disabled v = true <->
  loading v = true \/ forallb isWhiteSpace (tweet v) = true.
Proof.
  unfold button_disabled. rewrite orb_true_iff, negb_true_iff.
  rewrite ToBoolean_str, trim_nil_iff. reflexivity.
Qed.

(** A click on the enabled button never produces the empty-input
    message: a draft of at most 280 code units is submitted, a longer one
    gets the length message. *)
Theorem enabled_click (w : World) :
  button_disabled (view w) = false ->
  let w' := exec analyzeTweet w in
  if 280 <? JS.length (tweet (view w))
  then error (view w') = VStr (lit "Tweet must be 280 characters or less") /\
       net w' = net w /\ loading (view w') = false
  else error (view w') = VStr (lit "") /\
       net w' = net w ++ [analyze_request (tweet (view w))] /\
       loading (view w') = true.
Proof.
  intro H. cbv zeta. unfold button_disabled in H.
  apply orb_false_iff in H. destruct H as [Hl Ht].
  apply negb_false_iff, nonblank_iff in Ht.
  destruct (280 <? JS.length (tweet (view w))) eqn:L.
  - apply N.ltb_lt in L. rewrite analyzeTweet_too_long by assumption.
    simpl. repeat split. exact Hl.
  - apply N.ltb_ge in L. rewrite analyzeTweet_accepted by assumption.
    simpl. repeat split.
Qed.

Lemma enabled_click_witness :
  net (exec analyzeTweet (drafting great_day)) = [analyze_request great_day] /\
  loading (view (exec analyzeTweet (drafting great_day))) = true.
Proof.
  destruct (enabled_click (drafting great_day) eq_refl) as (_ & Hn & Hl).
  split; [exact Hn | exact Hl].
Defined.





(* ===================================================================== *)
(** ** Invariants of the runs *)
(* ===================================================================== *)

Lemma in_flight_app (k : task) (l1 l2 : list task) :
  in_flight k (l1 ++ l2) = (in_flight k l1 + in_flight k l2)%nat.
Proof. unfold in_flight. rewrite filter_app, length_app. reflexivity. Qed.

Lemma in_flight_take (k k' : task) (l : list task) :
  in_flight k (take k' l)
  = if task_eqb k k' then pred (in_flight k l) else in_flight k l.
Proof.
  induction l as [|a l IH]; [destruct k, k'; reflexivity|].
  destruct k, k', a; simpl in *; unfold in_flight in *; simpl in *;
    try rewrite IH; reflexivity.
Qed.

Lemma in_flight_In (k : task) (l : list task) :
  In k l -> (1 <= in_flight k l)%nat.
Proof.
  induction l as [|a l IH]; simpl; [contradiction|].
  intros [-> | H].
  - unfold in_flight. simpl. destruct k; simpl; lia.
  - specialize (IH H). unfold in_flight in *. simpl.
    destruct (task_eqb k a); simpl; lia.
Qed.

Lemma ui_invariant_mount : ui_invariant (exec mount initial_world).
Proof.
  unfold ui_invariant. simpl.
  split; [discriminate|]. split; [reflexivity | discriminate].
Qed.

Ltac split_invariant := unfold ui_invariant; split; [|split].

Lemma ui_invariant_step (w w' : World) :
  ui_invariant w -> step true w w' -> ui_invariant w'.
Proof.
  intros (Hlen & Hfl & Herr) St. destruct St as [s w C | w C | id w | k o w I].
  - specialize (C eq_refl). split_invariant; run; assumption.
  - specialize (C eq_refl). unfold button_disabled in C.
    apply orb_false_iff in C. destruct C as [Hl Ht].
    apply negb_false_iff, nonblank_iff in Ht.
    rewrite analyzeTweet_accepted by assumption.
    split_invariant; cbn [view pending tweet loading error].
    + exact Hlen.
    + rewrite in_flight_app, Hfl, Hl. reflexivity.
    + reflexivity.
  - split_invariant; run; try assumption.
    rewrite in_flight_app, Hfl. cbn. lia.
  - pose proof (in_flight_take AnalyzeTweetK k (pending w)) as Tk.
    pose proof (in_flight_In _ _ I) as In1.
    destruct k; simpl in Tk;
      destruct o as [e | [b [e | d]]]; try destruct b;
      split_invariant; run;
      try (destruct (Get d (lit "tweets")); simpl);
      try (destruct (Get d (lit "error")); simpl);
      rewrite ?in_flight_app, ?Tk, ?Hfl; cbn;
      try assumption; try discriminate;
      try (rewrite Hfl in In1; destruct (loading (view w)); simpl in *; lia);
      try (destruct (loading (view w)); simpl; lia).
Qed.

Lemma ui_invariant_reachable (w : World) : reachable true w -> ui_invariant w.
Proof.
  induction 1 as [|w w' _ IH St].
  - exact ui_invariant_mount.
  - exact (ui_invariant_step IH St).
Qed.

Lemma reachable_submitting :
  reachable true
    (exec analyzeTweet (exec (onChange great_day) (exec mount initial_world))).
Proof.
  apply reach_step with (w := exec (onChange great_day) (exec mount initial_world)).
  - apply reach_step with (w := exec mount initial_world).
    + apply reach_mount.
    + apply step_change. intros _. vm_compute. discriminate.
  - apply step_analyze. intros _. reflexivity.
Qed.

(** Through the page the draft never exceeds 280 code units: the
    textarea caps what is typed and the handlers only ever clear it. *)
Theorem ui_draft_capped (w : World) :
  reachable true w -> JS.length (tweet (view w)) <= 280.
Proof. intro R. exact (proj1 (ui_invariant_reachable R)). Qed.

Lemma ui_draft_capped_witness :
  JS.length
    (tweet (view (exec analyzeTweet
                    (exec (onChange great_day) (exec mount initial_world)))))
  <= 280.
Proof. exact (ui_draft_capped reachable_submitting). Defined.

(** Through the page at most one Analyze call is in flight, and the
    loading flag is set exactly while it is: the disabled button is what
    serialises submissions. *)
Theorem ui_one_submission_in_flight (w : World) :
  reachable true w ->
  in_flight AnalyzeTweetK (pending w)
  = if loading (view w) then 1%nat else 0%nat.
Proof. intro R. exact (proj1 (proj2 (ui_invariant_reachable R))). Qed.

Lemma ui_one_submission_in_flight_witness :
  in_flight AnalyzeTweetK
    (pending (exec analyzeTweet
                (exec (onChange great_day) (exec mount initial_world))))
  = 1%nat.
Proof. exact (ui_one_submission_in_flight reachable_submitting). Defined.

(** Through the page no error banner is shown while a submission is in
    flight. *)
Theorem ui_no_error_while_loading (w : World) :
  reachable true w ->
  loading (view w) = true ->
  error (view w) = VStr (lit "") /\ error_banner_shown (view w) = false.
Proof.
  intros R L. pose proof (proj2 (proj2 (ui_invariant_reachable R)) L) as E.
  split; [exact E|]. unfold error_banner_shown. rewrite E. reflexivity.
Qed.

Lemma ui_no_error_while_loading_witness :
  error_banner_shown
    (view (exec analyzeTweet
             (exec (onChange great_day) (exec mount initial_world))))
  = false.
Proof.
  exact (proj2 (ui_no_error_while_loading reachable_submitting eq_refl)).
Defined.

(** Through the page a click on the enabled button always submits: both
    validation messages are out of reach, the empty-input one because the
    button is disabled on a blank draft and the length one because the
    textarea caps the draft. *)
Theorem ui_click_always_submits (w : World) :
  reachable true w ->
  button_disabled (view w) = false ->
  let w' := exec analyzeTweet w in
  net w' = net w ++ [analyze_request (tweet (view w))] /\
  loading (view w') = true /\
  error (view w') = VStr (lit "").
Proof.
  intros R B. cbv zeta.
  pose proof (proj1 (ui_invariant_reachable R)) as L.
  unfold button_disabled in B. apply orb_false_iff in B. destruct B as [_ Ht].
  apply negb_false_iff, nonblank_iff in Ht.
  rewrite analyzeTweet_accepted by assumption.
  cbn [view net loading error]. split; [reflexivity|]. split; reflexivity.
Qed.

Lemma ui_click_always_submits_witness :
  let w := exec (onChange great_day) (exec mount initial_world) in
  net (exec analyzeTweet w)
  = [tweets_request; stats_request; analyze_request great_day].
Proof.
  refine (proj1 (@ui_click_always_submits
                   (exec (onChange great_day) (exec mount initial_world))
                   _ eq_refl)).
  apply reach_step with (w := exec mount initial_world).
  - apply reach_mount.
  - apply step_change. intros _. vm_compute. discriminate.
Defined.

Lemma resume_requests (k : task) (o : outcome) (w : World) :
  net (exec (resume k o) w) = net w \/
  net (exec (resume k o) w) = net w ++ [tweets_request; stats_request].
Proof.
  destruct k; destruct o as [e | [b [e | d]]]; try destruct b; run;
    try (destruct (Get d (lit "tweets")); simpl);
    try (destruct (Get d (lit "error")); simpl);
    rewrite <- ?app_assoc; simpl; auto.
Qed.

(** However the handlers are called, every request the component issues
    goes to one of its four endpoints, and every Analyze request carries
    a text that is not blank and has at most 280 code units: the length
    constraint is enforced before the call is issued. *)
Theorem requests_well_formed (ui : bool) (w : World) :
  reachable ui w -> Forall component_request (net w).
Proof.
  induction 1 as [|w w' _ IH St].
  - cbn. constructor; [left; reflexivity|].
    constructor; [right; left; reflexivity | constructor].
  - destruct St as [s w C | w C | id w | k o w I].
    + exact IH.
    + destruct (list_eq_dec N.eq_dec (trim (tweet (view w))) []) as [E|E].
      * rewrite analyzeTweet_empty by exact E. exact IH.
      * destruct (N.lt_ge_cases 280 (JS.length (tweet (view w)))) as [L|L].
        -- rewrite analyzeTweet_too_long by assumption. exact IH.
        -- rewrite analyzeTweet_accepted by assumption. cbn [net].
           apply Forall_app. split; [exact IH|].
           constructor; [|constructor].
           right. right. right. exists (tweet (view w)).
           split; [reflexivity|]. split; assumption.
    + run. apply Forall_app. split; [exact IH|].
      constructor; [|constructor]. right. right. left. exists id. reflexivity.
    + unfold settle.
      destruct (resume_requests k o
                  {| view := view w; net := net w; console := console w;
                     pending := take k (pending w) |}) as [-> | ->];
        cbn [net]; [exact IH|].
      apply Forall_app. split; [exact IH|].
      constructor; [left; reflexivity|].
      constructor; [right; left; reflexivity | constructor].
Qed.

Lemma requests_well_formed_witness :
  Forall component_request
    (net (exec analyzeTweet
            (exec (onChange great_day) (exec mount initial_world)))).
Proof. exact (requests_well_formed reachable_submitting). Defined.

(* ===================================================================== *)
(** ** Who writes what *)
(* ===================================================================== *)

(** The item list changes only when a List fetch settles and the stats
    snapshot only when a Stats fetch settles: typing, submitting,
    deleting and the other continuations never write them, so the
    component never inserts or removes an item on its own. *)
Theorem reads_own_their_cells (ui : bool) (w w' : World) :
  step ui w w' ->
  (tweets (view w') = tweets (view w) \/
   exists o, w' = settle FetchTweetsK o w) /\
  (stats (view w') = stats (view w) \/
   exists o, w' = settle FetchStatsK o w).
Proof.
  intros [s w0 C | w0 C | id w0 | k o w0 I].
  - run. split; left; reflexivity.
  - destruct (list_eq_dec N.eq_dec (trim (tweet (view w0))) []) as [E|E].
    + rewrite analyzeTweet_empty by exact E. split; left; reflexivity.
    + destruct (N.lt_ge_cases 280 (JS.length (tweet (view w0)))) as [L|L].
      * rewrite analyzeTweet_too_long by assumption. split; left; reflexivity.
      * rewrite analyzeTweet_accepted by assumption. split; left; reflexivity.
  - run. split; left; reflexivity.
  - destruct k.
    + split; [right; exists o; reflexivity|]. left.
      unfold settle, resume.
      exact (proj1 (proj2 (fetchTweets_resume_frame _ o))).
    + split; [|right; exists o; reflexivity]. left.
      unfold settle, resume.
      exact (proj1 (proj2 (fetchStats_resume_frame _ o))).
    + pose proof (analyzeTweet_resume_always_unlocks o
                    {| view := view w0; net := net w0; console := console w0;
                       pending := take AnalyzeTweetK (pending w0) |})
        as (_ & Ht & Hs & _).
      split; left; assumption.
    + destruct o as [e | [b j]]; try destruct b; run; split; left; reflexivity.
Qed.

Lemma reads_own_their_cells_witness :
  let w := exec mount initial_world in
  let w' := exec (deleteTweet (lit "42")) w in
  (tweets (view w') = tweets (view w) \/
   exists o, w' = settle FetchTweetsK o w) /\
  (stats (view w') = stats (view w) \/
   exists o, w' = settle FetchStatsK o w).
Proof.
  exact (@reads_own_their_cells true (exec mount initial_world)
           (exec (deleteTweet (lit "42")) (exec mount initial_world))
           (step_delete true (lit "42") (exec mount initial_world))).
Defined.

(** The error message and the loading flag are written by a submission
    only: typing does not clear a shown error, and deleting and
    refreshing, failed or not, never show one. *)
Theorem error_owned_by_submission (ui : bool) (w w' : World) :
  step ui w w' ->
  (error (view w') = error (view w) /\ loading (view w') = loading (view w)) \/
  w' = exec analyzeTweet w \/
  exists o, w' = settle AnalyzeTweetK o w.
Proof.
  intros [s w0 C | w0 C | id w0 | k o w0 I].
  - left. run. split; reflexivity.
  - right. left. reflexivity.
  - left. run. split; reflexivity.
  - destruct k.
    + left. unfold settle, resume.
      destruct (fetchTweets_resume_frame
                  {| view := view w0; net := net w0; console := console w0;
                     pending := take FetchTweetsK (pending w0) |} o)
        as (_ & _ & Hl & He & _).
      split; assumption.
    + left. unfold settle, resume.
      destruct (fetchStats_resume_frame
                  {| view := view w0; net := net w0; console := console w0;
                     pending := take FetchStatsK (pending w0) |} o)
        as (_ & _ & Hl & He & _).
      split; assumption.
    + right. right. exists o. reflexivity.
    + left. destruct o as [e | [b j]]; try destruct b; run; split; reflexivity.
Qed.

Lemma error_owned_by_submission_witness :
  let w := exec analyzeTweet (drafting (lit "  ")) in
  let w' := exec (onChange great_day) w in
  (error (view w') = error (view w) /\ loading (view w') = loading (view w)) \/
  w' = exec analyzeTweet w \/
  exists o, w' = settle AnalyzeTweetK o w.
Proof.
  apply (@error_owned_by_submission false
           (exec analyzeTweet (drafting (lit "  ")))
           (exec (onChange great_day) (exec analyzeTweet (drafting (lit "  "))))).
  apply step_change. intro H. discriminate H.
Defined.

